(** * cryptowatch: the REST wrappers of the Cryptowatch market API

    A shallow embedding of the Go package [cryptowatch] (the response
    unwrapper [request], the fifteen endpoint functions and the route table
    [indexes]) together with the parts of the Go runtime the package leans
    on: [fmt.Sprintf], the [string(int)] conversion, [encoding/json] and the
    unchecked type assertion.

    The sources hold the package in two variants with the same [request] up
    to its last branch: the typed one, whose endpoint functions decode the
    payload into the structs of the types file, and an older one that hands
    the payload on as an [interface{}]. The typed variant is the one
    embedded here.

    Conventions.
    - A Go [string] is a sequence of bytes: Rocq's [string].
    - A Go [float64] is a primitive binary64 float.
    - A function that may panic runs in the monad [M], which also records
      the calls of [http.Get].
    - A pair [(result, err)] of Go is a pair whose second component is an
      [option error]; [None] is the nil error. *)

From Stdlib Require Import ZArith String Ascii Floats Lia.
From stdpp Require Import gmap strings list sorting pretty.

Set Warnings "-register-all".
Local Open Scope string_scope.
Local Open Scope Z_scope.

(** ** Strings *)

(** The byte with the given value (taken modulo 256). *)
Definition byte_of_Z (n : Z) : ascii := ascii_of_N (Z.to_N (n mod 256)).

(** [utf8.EncodeRune]: the UTF-8 encoding of a code point; surrogate halves and
    values outside the Unicode range are encoded as U+FFFD. *)
Definition utf8_EncodeRune (r : Z) : string :=
  if (r <? 0) || (0x10FFFF <? r) || ((0xD800 <=? r) && (r <=? 0xDFFF)) then
    String (byte_of_Z 0xEF) (String (byte_of_Z 0xBF) (String (byte_of_Z 0xBD) ""))
  else if r <=? 0x7F then
    String (byte_of_Z r) ""
  else if r <=? 0x7FF then
    String (byte_of_Z (Z.lor 0xC0 (Z.shiftr r 6)))
      (String (byte_of_Z (Z.lor 0x80 (Z.land r 0x3F))) "")
  else if r <=? 0xFFFF then
    String (byte_of_Z (Z.lor 0xE0 (Z.shiftr r 12)))
      (String (byte_of_Z (Z.lor 0x80 (Z.land (Z.shiftr r 6) 0x3F)))
         (String (byte_of_Z (Z.lor 0x80 (Z.land r 0x3F))) ""))
  else
    String (byte_of_Z (Z.lor 0xF0 (Z.shiftr r 18)))
      (String (byte_of_Z (Z.lor 0x80 (Z.land (Z.shiftr r 12) 0x3F)))
         (String (byte_of_Z (Z.lor 0x80 (Z.land (Z.shiftr r 6) 0x3F)))
            (String (byte_of_Z (Z.lor 0x80 (Z.land r 0x3F))) ""))).

(** The conversion [string(i)] of an integer [i]: the UTF-8 representation of
    the code point [i], not its decimal digits. *)
Definition string_of_int (i : Z) : string := utf8_EncodeRune i.

(** [strconv.Itoa]: the decimal digits of an integer. *)
Definition strconv_Itoa (i : Z) : string := pretty i.

(** [strings.Contains s substr]. *)
Definition strings_Contains (s substr : string) : bool :=
  match String.index 0 substr s with
  | Some _ => true
  | None => false
  end.

(** ** fmt.Sprintf on string operands

    The formats of the route table are literal text and [%v] directives.
    The model covers the verbs [%v] and [%s] (the operand as it is), [%%],
    a missing operand, operands left over, and the bad-verb rendering of any
    other single character after [%]; flags, widths, explicit operand
    indexes and the verbs [%x], [%X], [%q] are outside of it. *)

Fixpoint fmt_extra (a : list string) : string :=
  match a with
  | [] => ""
  | [x] => "string=" +:+ x
  | x :: a' => "string=" +:+ x +:+ ", " +:+ fmt_extra a'
  end.

Fixpoint fmt_Sprintf (format : string) (a : list string) : string :=
  match format with
  | EmptyString =>
      match a with
      | [] => ""
      | _ => "%!(EXTRA " +:+ fmt_extra a +:+ ")"
      end
  | String "%" EmptyString =>
      "%!(NOVERB)" +:+
      match a with
      | [] => ""
      | _ => "%!(EXTRA " +:+ fmt_extra a +:+ ")"
      end
  | String "%" (String "%" rest) => String "%" (fmt_Sprintf rest a)
  | String "%" (String verb rest) =>
      match a with
      | [] => "%!" +:+ String verb "(MISSING)" +:+ fmt_Sprintf rest []
      | x :: a' =>
          if bool_decide (verb = "v"%char) || bool_decide (verb = "s"%char)
          then x +:+ fmt_Sprintf rest a'
          else "%!" +:+ String verb "(string=" +:+ x +:+ ")" +:+ fmt_Sprintf rest a'
      end
  | String c rest => String c (fmt_Sprintf rest a)
  end.

(** ** The route table *)

Definition base : string := "https://api.cryptowat.ch/".

(** cryptowatch indexes *)
Definition indexes : gmap string string :=
  list_to_map [
    ("Assets",              base +:+ "assets");
    ("Asset",               base +:+ "assets/%v");
    ("Pairs",               base +:+ "pairs");
    ("Pair",                base +:+ "pairs/%v");
    ("Exchanges",           base +:+ "exchanges");
    ("Exchange",            base +:+ "exchanges/%v");
    ("Markets",             base +:+ "markets");
    ("Market",              base +:+ "markets/%v/%v");
    ("MarketPrice",         base +:+ "markets/%v/%v/price");
    ("MarketSummary",       base +:+ "markets/%v/%v/summary");
    ("MarketTrades",        base +:+ "markets/%v/%v/trades");
    ("MarketOrderBook",     base +:+ "markets/%v/%v/orderbook");
    ("MarketOHLC",          base +:+ "markets/%v/%v/ohlc");
    ("AggregratePrices",    base +:+ "markets/prices");
    ("AggregrateSummaries", base +:+ "markets/summaries")
  ].

(** Indexing a Go map: the zero value (the empty string) for an absent key. *)
Definition index (m : gmap string string) (k : string) : string := m !!! k.

(** ** JSON texts and the values encoding/json reads in them *)

(** The syntax tree of a JSON text. The members of an object keep the order
    of the text and may repeat a key. A number literal is represented by the
    [float64] it denotes, which is finite; white space and the spelling of
    literals are abstracted. *)
Inductive json :=
| JNull
| JBool (b : bool)
| JNum (f : float)
| JStr (s : string)
| JArr (elems : list json)
| JObj (members : list (string * json)).

(** What [json.Unmarshal] stores in an [interface{}]: nil, [bool], [float64],
    [string], [[]interface{}] or [map[string]interface{}]. *)
Inductive value :=
| VNil
| VBool (b : bool)
| VNum (f : float)
| VStr (s : string)
| VArr (elems : list value)
| VMap (m : gmap string value).

(** The Go types the package decodes into; a struct field is given by its Go
    name, its JSON key and its type. *)
Inductive gotype :=
| TString
| TInt
| TBool
| TFloat64
| TSlice (elem : gotype)
| TMap (elem : gotype)
| TStruct (name : string) (fields : list (string * (string * gotype))).

(** The values of these types. A slice and a map may be nil. The spare
    capacity of a slice is not represented. *)
Inductive goval :=
| GString (s : string)
| GInt (n : Z)
| GBool (b : bool)
| GFloat64 (f : float)
| GSlice (s : option (list goval))
| GMap (m : option (gmap string goval))
| GStruct (fields : list (string * goval)).

(** Errors. [UnmarshalTypeError] keeps the kind of JSON value and the Go type
    it could not be stored in (not the offset, nor the text of a number). *)
Inductive error :=
| net_Error (msg : string)
| json_SyntaxError (msg : string)
| json_UnmarshalTypeError (Value : string) (Typ : gotype)
| json_UnsupportedValueError
| errorString (s : string).

Definition errors_New (text : string) : error := errorString text.

(** The method [Error()], for the errors whose text is kept. *)
Definition Error (e : error) : option string :=
  match e with
  | net_Error msg => Some msg
  | json_SyntaxError msg => Some msg
  | errorString s => Some s
  | _ => None
  end.

(** A byte slice that only ever meets encoding/json is represented by what
    the decoder finds in it: the syntax tree of a JSON text, or the error
    [json.Unmarshal] reports for bytes that do not decode (a syntax error, or
    a number literal outside the range of [float64]). *)
Inductive bytes :=
| Invalid (e : error)
| Doc (j : json).

(** The zero value of a type. *)
Fixpoint zero (t : gotype) : goval :=
  match t with
  | TString => GString ""
  | TInt => GInt 0
  | TBool => GBool false
  | TFloat64 => GFloat64 0%float
  | TSlice _ => GSlice None
  | TMap _ => GMap None
  | TStruct _ fields => GStruct (map (fun f => (f.1, zero f.2.2)) fields)
  end.

(** *** Decoding into [interface{}] *)

Fixpoint to_value (j : json) : value :=
  match j with
  | JNull => VNil
  | JBool b => VBool b
  | JNum f => VNum f
  | JStr s => VStr s
  | JArr elems => VArr (map to_value elems)
  | JObj members =>
      VMap (foldl (fun m kv => <[kv.1 := to_value kv.2]> m) ∅ members)
  end.

(** [json.Unmarshal(data, &v)] for [var v interface{}]. *)
Definition json_Unmarshal_interface (data : bytes) : error + value :=
  match data with
  | Invalid e => inl e
  | Doc j => inr (to_value j)
  end.

(** *** Encoding an [interface{}] *)

(** NaN and the infinities have no JSON encoding. *)
Fixpoint encodable (v : value) : bool :=
  match v with
  | VNum f => is_finite f
  | VArr elems => forallb encodable elems
  | VMap m => map_fold (fun _ x b => encodable x && b) true m
  | _ => true
  end.

(** The members of an encoded object are sorted by key, byte-wise. *)
Definition member_le (a b : string * json) : Prop := String.leb a.1 b.1.

Global Instance member_le_dec : RelDecision member_le.
Proof. intros a b. unfold member_le. apply _. Defined.

Fixpoint of_value (v : value) : json :=
  match v with
  | VNil => JNull
  | VBool b => JBool b
  | VNum f => JNum f
  | VStr s => JStr s
  | VArr elems => JArr (map of_value elems)
  | VMap m => JObj (merge_sort member_le (map_to_list (of_value <$> m)))
  end.

(** [json.Marshal(v)] for an [interface{}] holding [v]. *)
Definition json_Marshal (v : value) : option bytes * option error :=
  if encodable v then (Some (Doc (of_value v)), None)
  else (None, Some json_UnsupportedValueError).

(** *** Decoding into a typed destination *)

(** Upper-case an ASCII letter. *)
Definition upper (c : ascii) : ascii :=
  let n := N_of_ascii c in
  if (97 <=? n)%N && (n <=? 122)%N then ascii_of_N (n - 32) else c.

(** The folding of a JSON key used to match struct fields without regard to
    case: ASCII letters in upper case, U+017F (long s) as S and U+212A
    (Kelvin sign) as K. These are the only runes that fold to an ASCII
    letter; every other rune is kept, which decides the comparison with the
    all-ASCII keys of the package's struct tags as Go's folding does. *)
Fixpoint foldName (s : string) : string :=
  match s with
  | EmptyString => EmptyString
  | String c rest =>
      if (N_of_ascii c <? 128)%N then String (upper c) (foldName rest)
      else
        match rest with
        | String c2 rest2 =>
            if (N_of_ascii c =? 0xC5)%N && (N_of_ascii c2 =? 0xBF)%N
            then String "S" (foldName rest2)
            else
              match rest2 with
              | String c3 rest3 =>
                  if (N_of_ascii c =? 0xE2)%N && (N_of_ascii c2 =? 0x84)%N
                     && (N_of_ascii c3 =? 0xAA)%N
                  then String "K" (foldName rest3)
                  else String c (foldName rest)
              | EmptyString => String c (foldName rest)
              end
        | EmptyString => String c EmptyString
        end
  end.

(** The field a JSON key selects: the field whose key is exactly the given
    one, else the first field whose key equals it up to folding. *)
Definition find_field (fields : list (string * (string * gotype))) (key : string)
  : option (string * gotype) :=
  match List.find (fun f => bool_decide (f.2.1 = key)) fields with
  | Some f => Some (f.1, f.2.2)
  | None =>
      match List.find (fun f => bool_decide (foldName f.2.1 = foldName key)) fields with
      | Some f => Some (f.1, f.2.2)
      | None => None
      end
  end.

(** Reading and writing a field of a struct value. *)
Definition get_field (v : goval) (name : string) (t : gotype) : goval :=
  match v with
  | GStruct fields =>
      match List.find (fun f => bool_decide (f.1 = name)) fields with
      | Some f => f.2
      | None => zero t
      end
  | _ => zero t
  end.

Fixpoint update_field (fields : list (string * goval)) (name : string) (x : goval)
  : list (string * goval) :=
  match fields with
  | [] => [(name, x)]
  | f :: fields' =>
      if bool_decide (f.1 = name) then (name, x) :: fields'
      else f :: update_field fields' name x
  end.

Definition set_field (v : goval) (name : string) (x : goval) : goval :=
  match v with
  | GStruct fields => GStruct (update_field fields name x)
  | _ => GStruct [(name, x)]
  end.

(** The integer a number of the encoder's output denotes for
    [strconv.ParseInt(s, 10, 64)]: the encoder writes an integral [float64]
    below 1e21 in magnitude as a plain run of digits, and everything else with
    a fraction or an exponent, which [ParseInt] refuses, as it refuses a run
    of digits outside the range of [int64]. *)
Definition int_of_number (f : float) : option Z :=
  match Prim2SF f with
  | S754_zero _ => Some 0
  | S754_finite s m e =>
      let magnitude :=
        if 0 <=? e then Some (Z.pos m * 2 ^ e)
        else if Z.pos m mod 2 ^ (- e) =? 0 then Some (Z.pos m / 2 ^ (- e))
        else None in
      match magnitude with
      | Some n =>
          let z := if s then - n else n in
          if (- 2 ^ 63 <=? z) && (z <=? 2 ^ 63 - 1) then Some z else None
      | None => None
      end
  | _ => None
  end.

(** Only the first error of a decoding is kept. *)
Definition saveError (saved new : option error) : option error :=
  match saved with
  | Some _ => saved
  | None => new
  end.

(** The three loops of the decoder, over a decoder [value] of one JSON value.

    An array into a slice holding [old]: element [i] is decoded into the
    element already there, or into a zero element past the end, and the
    slice ends up as long as the array. *)
Definition decode_array (value : json -> goval -> goval * option error)
  (elem_zero : goval) (old : list goval)
  : list json -> nat -> list goval * option error :=
  fix array (l : list json) (i : nat) : list goval * option error :=
    match l with
    | [] => ([], None)
    | j :: l' =>
        let '(x, e) := value j (default elem_zero (old !! i)) in
        let '(xs, e') := array l' (S i) in
        (x :: xs, saveError e e')
    end.

(** An object into a map: every member is decoded into a fresh zero element
    and stored under its key, also when its value did not fit. *)
Definition decode_map (value : json -> goval * option error)
  : list (string * json) -> gmap string goval -> gmap string goval * option error :=
  fix object (l : list (string * json)) (m : gmap string goval)
    : gmap string goval * option error :=
    match l with
    | [] => (m, None)
    | (key, j) :: l' =>
        let '(x, e) := value j in
        let '(m', e') := object l' (<[key := x]> m) in
        (m', saveError e e')
    end.

(** An object into a struct: a member is decoded into the field its key
    selects, and skipped when it selects none. *)
Definition decode_struct (value : json -> gotype -> goval -> goval * option error)
  (fields : list (string * (string * gotype)))
  : list (string * json) -> goval -> goval * option error :=
  fix object (l : list (string * json)) (v : goval) : goval * option error :=
    match l with
    | [] => (v, None)
    | (key, j) :: l' =>
        match find_field fields key with
        | Some (name, ft) =>
            let '(x, e) := value j ft (get_field v name ft) in
            let '(v', e') := object l' (set_field v name x) in
            (v', saveError e e')
        | None => object l' v
        end
    end.

(** The decoder of [json.Unmarshal] for a syntactically valid text: [decode j
    t cur] stores the JSON value [j] in a destination of type [t] holding
    [cur], and returns the new content with the first type error met. A value
    that does not fit leaves its destination as it was and decoding goes on
    with the rest of the text. An [int] is 64 bits wide. *)
Fixpoint decode (j : json) (t : gotype) (cur : goval) : goval * option error :=
  match j with
  | JNull =>
      match t with
      | TSlice _ => (GSlice None, None)
      | TMap _ => (GMap None, None)
      | _ => (cur, None)
      end
  | JBool b =>
      match t with
      | TBool => (GBool b, None)
      | _ => (cur, Some (json_UnmarshalTypeError "bool" t))
      end
  | JStr s =>
      match t with
      | TString => (GString s, None)
      | _ => (cur, Some (json_UnmarshalTypeError "string" t))
      end
  | JNum f =>
      match t with
      | TFloat64 => (GFloat64 f, None)
      | TInt =>
          match int_of_number f with
          | Some n => (GInt n, None)
          | None => (cur, Some (json_UnmarshalTypeError "number" t))
          end
      | _ => (cur, Some (json_UnmarshalTypeError "number" t))
      end
  | JArr elems =>
      match t with
      | TSlice elem =>
          let old := match cur with GSlice (Some xs) => xs | _ => [] end in
          let '(xs, err) :=
            decode_array (fun j' cur' => decode j' elem cur') (zero elem) old
              elems 0%nat in
          (GSlice (Some xs), err)
      | _ => (cur, Some (json_UnmarshalTypeError "array" t))
      end
  | JObj members =>
      match t with
      | TMap elem =>
          let old := match cur with GMap (Some m) => m | _ => ∅ end in
          let '(m, err) :=
            decode_map (fun j' => decode j' elem (zero elem)) members old in
          (GMap (Some m), err)
      | TStruct _ fields =>
          decode_struct (fun j' ft cur' => decode j' ft cur') fields members cur
      | _ => (cur, Some (json_UnmarshalTypeError "object" t))
      end
  end.

(** [json.Unmarshal(data, &v)] for a variable [v] of type [t] holding [cur]:
    the text is checked as a whole before anything is stored. *)
Definition json_Unmarshal (data : bytes) (t : gotype) (cur : goval)
  : goval * option error :=
  match data with
  | Invalid e => (cur, Some e)
  | Doc j => decode j t cur
  end.

(** ** The result types of the endpoints *)

(** AssetMarket contains details for a quote or base for a market *)
Definition AssetMarket : gotype :=
  TStruct "AssetMarket"
    [("Exchange", ("exchange", TString)); ("Pair", ("pair", TString));
     ("Active", ("active", TBool)); ("Route", ("route", TString))].

(** PairData contains details for a quote or pair for a specific pair *)
Definition PairData : gotype :=
  TStruct "PairData"
    [("Symbol", ("symbol", TString)); ("Name", ("name", TString));
     ("IsFiat", ("isFiat", TBool)); ("Route", ("route", TString))].

(** Asset holds the general data for a cryptowatch asset *)
Definition Asset : gotype :=
  TStruct "Asset"
    [("Symbol", ("symbol", TString)); ("Name", ("name", TString));
     ("Fiat", ("fiat", TBool)); ("Route", ("route", TString))].

(** DetailedAsset contains addition information on an asset (Markets) *)
Definition DetailedAsset : gotype :=
  TStruct "DetailedAsset"
    [("ID", ("id", TInt)); ("Symbol", ("symbol", TString));
     ("Name", ("name", TString)); ("Fiat", ("fiat", TBool));
     ("Markets", ("markets",
        TStruct "" [("Base", ("base", TSlice AssetMarket));
                    ("Quote", ("quote", TSlice AssetMarket))]))].

(** Pair contains general information on a crytowatch pair *)
Definition Pair : gotype :=
  TStruct "Pair"
    [("Symbol", ("symbol", TString)); ("ID", ("id", TInt));
     ("Base", ("base", PairData)); ("Quote", ("quote", PairData));
     ("Route", ("route", TString))].

(** PairMarket contains market data for a cryptowatch pair *)
Definition PairMarket : gotype :=
  TStruct "PairMarket"
    [("Symbol", ("symbol", TString)); ("ID", ("id", TInt));
     ("Base", ("base", PairData)); ("Quote", ("quote", PairData));
     ("Route", ("route", TString)); ("Markets", ("markets", TSlice AssetMarket))].

(** GeneralExchange contains general information on an exchange *)
Definition GeneralExchange : gotype :=
  TStruct "GeneralExchange"
    [("Symbol", ("symbol", TString)); ("Name", ("name", TString));
     ("Active", ("active", TBool)); ("Route", ("route", TString))].

(** DetailedExchange contains additional information on an exchange *)
Definition DetailedExchange : gotype :=
  TStruct "DetailedExchange"
    [("ID", ("id", TInt)); ("Name", ("name", TString)); ("Active", ("active", TBool));
     ("Routes", ("routes", TStruct "" [("Markets", ("markets", TString))]))].

(** GeneralMarket contains general information for a single market *)
Definition GeneralMarket : gotype :=
  TStruct "GeneralMarket"
    [("Exchange", ("exchange", TString)); ("Pair", ("pair", TString));
     ("Active", ("active", TBool)); ("Route", ("route", TString))].

(** DetailedMarket contains addition routing information for a market *)
Definition DetailedMarket : gotype :=
  TStruct "DetailedMarket"
    [("Exchange", ("exchange", TString)); ("Pair", ("pair", TString));
     ("Active", ("active", TBool));
     ("Routes", ("routes",
        TStruct "" [("Price", ("price", TString)); ("Summary", ("summary", TString));
                    ("Orderbook", ("orderbook", TString)); ("Trades", ("trades", TString));
                    ("Ohlc", ("ohlc", TString))]))].

(** Summary contains summary information for a market *)
Definition Summary : gotype :=
  TStruct "Summary"
    [("Price", ("price",
        TStruct "" [("Last", ("last", TFloat64)); ("High", ("high", TFloat64));
                    ("Low", ("low", TFloat64));
                    ("Change", ("change",
                       TStruct "" [("Percentage", ("percentage", TFloat64));
                                   ("Absolute", ("absolute", TFloat64))]))]));
     ("Volume", ("volume", TFloat64))].

(** Trade contains trading information for an asset *)
Definition Trade : gotype := TSlice TFloat64.

(** MarketOrderBook contains the ask/bid prices for a market *)
Definition MarketOrderBook : gotype :=
  TStruct "MarketOrderBook"
    [("Asks", ("asks", TSlice (TSlice TFloat64)));
     ("Bids", ("bids", TSlice (TSlice TFloat64)))].

(** OHLC contains open-high-low-close info for a market *)
Definition OHLC : gotype := TMap (TSlice (TSlice TFloat64)).

(** AggregratePrice contains prices on all markets *)
Definition AggregratePrice : gotype := TMap TFloat64.

(** AggregrateSummary contains summary for all markets *)
Definition AggregrateSummary : gotype := TMap Summary.

(** ** The world and the monad of the package's functions *)

(** An HTTP response: its status code, and what reading its body to the end
    gives. *)
Record Response := { StatusCode : Z; Body : error + bytes }.

(** What a call depends on outside of the program: the answer of the
    network to a GET of a URL (a transport error or a response) and the
    minute of the hour on the wall clock, between 0 and 59. *)
Record World := { serve : string -> error + Response; Minute : Z }.

(** What a call does to the network: the calls of [http.Get], in order. *)
Inductive event := GET (url : string).

(** A failed type assertion [x.(T)]: the dynamic type of [x] and [T]. *)
Inductive panic := TypeAssertionError (concrete asserted : string).

Inductive outcome (A : Type) :=
| Returned (a : A)
| Panicked (p : panic).
Arguments Returned {A} a.
Arguments Panicked {A} p.

Definition M (A : Type) : Type := World -> list event * outcome A.

Global Instance M_ret : MRet M := fun A a _ => ([], Returned a).

Global Instance M_bind : MBind M := fun A B k m w =>
  match m w with
  | (t, Returned a) => let '(t', o) := k a w in ((t ++ t')%list, o)
  | (t, Panicked p) => (t, Panicked p)
  end.

Definition raise {A} (p : panic) : M A := fun _ => ([], Panicked p).

(** [http.Get(url)] *)
Definition http_Get (url : string) : M (error + Response) :=
  fun w => ([GET url], Returned (serve w url)).

(** [ioutil.ReadAll(resp.Body)] *)
Definition ioutil_ReadAll (body : error + bytes) : error + bytes := body.

(** [time.Now().Minute()] *)
Definition time_Now_Minute : M Z := fun w => ([], Returned (Minute w)).

(** The name of the dynamic type of an [interface{}] filled by the decoder. *)
Definition dynamic_type (v : value) : string :=
  match v with
  | VNil => "nil"
  | VBool _ => "bool"
  | VNum _ => "float64"
  | VStr _ => "string"
  | VArr _ => "[]interface {}"
  | VMap _ => "map[string]interface {}"
  end.

(** [x.(map[string]interface{})] *)
Definition assert_map (x : value) : M (gmap string value) :=
  match x with
  | VMap m => mret m
  | _ => raise (TypeAssertionError (dynamic_type x) "map[string]interface {}")
  end.

(** [x.(string)] *)
Definition assert_string (x : value) : M string :=
  match x with
  | VStr s => mret s
  | _ => raise (TypeAssertionError (dynamic_type x) "string")
  end.

(** [m[k]] on a [map[string]interface{}]: nil for an absent key. *)
Definition map_index (m : gmap string value) (k : string) : value :=
  default VNil (m !! k).

(** [m[k]] on a [map[string]float64]: 0 for an absent key and on a nil map. *)
Definition float_index (m : goval) (k : string) : float :=
  match m with
  | GMap (Some m) =>
      match m !! k with
      | Some (GFloat64 f) => f
      | _ => 0%float
      end
  | _ => 0%float
  end.

(** ** The response unwrapper *)

Definition request (url : string) : M (option bytes * option error) :=
  r ← http_Get url;
  match r with
  | inl err => mret (None, Some err)
  | inr resp =>
      match ioutil_ReadAll (Body resp) with
      | inl err => mret (None, Some err)
      | inr body =>
          match json_Unmarshal_interface body with
          | inl err => mret (None, Some err)
          | inr data =>
              (* convert the response to a usable format *)
              results ← assert_map data;
              if bool_decide (StatusCode resp = 429) then
                now ← time_Now_Minute;
                let ttr := 60 - now in
                let message :=
                  "Too Many Requests. Allowance resets in " +:+ string_of_int ttr
                  +:+ " minutes." in
                mret (None, Some (errors_New message))
              else if bool_decide (StatusCode resp ≠ 200) then
                message ← assert_string (map_index results "error");
                mret (None, Some (errors_New message))
              else
                mret (json_Marshal (map_index results "result"))
          end
      end
  end.

(** ** The endpoint functions *)

(** Assets returns all assets (in no particular order). *)
Definition Assets : M (goval * option error) :=
  let assets := zero (TSlice Asset) in
  '(res, err) ← request (index indexes "Assets");
  match res with
  | Some res =>
      let '(assets, _) := json_Unmarshal res (TSlice Asset) assets in
      mret (assets, err)
  | None => mret (assets, err)
  end.

(** AssetMarkets returns all markets which have this asset as a base or quote. *)
Definition AssetMarkets (asset : string) : M (goval * option error) :=
  let markets := zero DetailedAsset in
  let url := fmt_Sprintf (index indexes "Asset") [asset] in
  '(res, err) ← request url;
  match res with
  | Some res =>
      let '(markets, err) := json_Unmarshal res DetailedAsset markets in
      mret (markets, err)
  | None => mret (markets, err)
  end.

(** Pairs returns all pairs (in no particular order). *)
Definition Pairs : M (goval * option error) :=
  let pairs := zero (TSlice Pair) in
  '(res, err) ← request (index indexes "Pairs");
  match res with
  | Some res =>
      let '(pairs, err) := json_Unmarshal res (TSlice Pair) pairs in
      mret (pairs, err)
  | None => mret (pairs, err)
  end.

(** PairMarkets lists all markets for this pair. *)
Definition PairMarkets (pair : string) : M (goval * option error) :=
  let markets := zero PairMarket in
  let url := fmt_Sprintf (index indexes "Pair") [pair] in
  '(res, err) ← request url;
  match res with
  | Some res =>
      let '(markets, err) := json_Unmarshal res PairMarket markets in
      mret (markets, err)
  | None => mret (markets, err)
  end.

(** Exchanges returns a list of all supported exchanges. *)
Definition Exchanges : M (goval * option error) :=
  let exchanges := zero (TSlice GeneralExchange) in
  '(res, err) ← request (index indexes "Exchanges");
  match res with
  | Some res =>
      let '(exchanges, err) := json_Unmarshal res (TSlice GeneralExchange) exchanges in
      mret (exchanges, err)
  | None => mret (exchanges, err)
  end.

(** Exchange returns a single exchange, with associated routes. *)
Definition Exchange (name : string) : M (goval * option error) :=
  let exchange := zero DetailedExchange in
  let url := fmt_Sprintf (index indexes "Exchange") [name] in
  '(res, err) ← request url;
  match res with
  | Some res =>
      let '(exchange, err) := json_Unmarshal res DetailedExchange exchange in
      mret (exchange, err)
  | None => mret (exchange, err)
  end.

(** Markets returns a list of all supported markets. *)
Definition Markets : M (goval * option error) :=
  let markets := zero (TSlice GeneralMarket) in
  '(res, err) ← request (index indexes "Markets");
  match res with
  | Some res =>
      let '(markets, err) := json_Unmarshal res (TSlice GeneralMarket) markets in
      mret (markets, err)
  | None => mret (markets, err)
  end.

(** Market returns a single market, with associated routes. *)
Definition Market (exchange pair : string) : M (goval * option error) :=
  let market := zero DetailedMarket in
  let url := fmt_Sprintf (index indexes "Market") [exchange; pair] in
  '(res, err) ← request url;
  match res with
  | Some res =>
      let '(market, err) := json_Unmarshal res DetailedMarket market in
      mret (market, err)
  | None => mret (market, err)
  end.

(** MarketPrice returns a market's last price. *)
Definition MarketPrice (exchange pair : string) : M (float * option error) :=
  let price := 0%float in
  let url := fmt_Sprintf (index indexes "MarketPrice") [exchange; pair] in
  '(res, err) ← request url;
  match res with
  | Some res =>
      let '(resp, err) := json_Unmarshal res (TMap TFloat64) (zero (TMap TFloat64)) in
      match err with
      | None => mret (float_index resp "price", err)
      | Some _ => mret (price, err)
      end
  | None => mret (price, err)
  end.

(** MarketSummary returns a market's last price as well as other stats based
    on a 24-hour sliding window. *)
Definition MarketSummary (exchange pair : string) : M (goval * option error) :=
  let summary := zero Summary in
  let url := fmt_Sprintf (index indexes "MarketSummary") [exchange; pair] in
  '(res, err) ← request url;
  match res with
  | Some res =>
      let '(summary, err) := json_Unmarshal res Summary summary in
      mret (summary, err)
  | None => mret (summary, err)
  end.

(** Trades returns a market's most recent trades, incrementing chronologically. *)
Definition Trades (exchange pair : string) : M (goval * option error) :=
  let trades := zero (TSlice Trade) in
  let url := fmt_Sprintf (index indexes "MarketTrades") [exchange; pair] in
  '(res, err) ← request url;
  match res with
  | Some res =>
      let '(trades, err) := json_Unmarshal res (TSlice Trade) trades in
      mret (trades, err)
  | None => mret (trades, err)
  end.

(** OrderBook returns a market's order book. *)
Definition OrderBook (exchange pair : string) : M (goval * option error) :=
  let orderbook := zero MarketOrderBook in
  let url := fmt_Sprintf (index indexes "MarketOrderBook") [exchange; pair] in
  '(res, err) ← request url;
  match res with
  | Some res =>
      let '(orderbook, err) := json_Unmarshal res MarketOrderBook orderbook in
      mret (orderbook, err)
  | None => mret (orderbook, err)
  end.

(** Ohlc returns a market's OHLC candlestick data. *)
Definition Ohlc (exchange pair : string) : M (goval * option error) :=
  let ohlc := zero OHLC in
  let url := fmt_Sprintf (index indexes "MarketOHLC") [exchange; pair] in
  '(res, err) ← request url;
  match res with
  | Some res =>
      let '(ohlc, err) := json_Unmarshal res OHLC ohlc in
      mret (ohlc, err)
  | None => mret (ohlc, err)
  end.

(** AggregratePrices returns the current price for all supported markets. *)
Definition AggregratePrices : M (goval * option error) :=
  let prices := zero AggregratePrice in
  '(res, err) ← request (index indexes "AggregratePrices");
  match res with
  | Some res =>
      let '(prices, err) := json_Unmarshal res AggregratePrice prices in
      mret (prices, err)
  | None => mret (prices, err)
  end.

(** AggregrateSummaries returns the market summary for all supported markets. *)
Definition AggregrateSummaries : M (goval * option error) :=
  let summaries := zero AggregrateSummary in
  '(res, err) ← request (index indexes "AggregrateSummaries");
  match res with
  | Some res =>
      let '(summaries, err) := json_Unmarshal res AggregrateSummary summaries in
      mret (summaries, err)
  | None => mret (summaries, err)
  end.

(** ** The endpoints as one family *)

(** A call of an endpoint function with its arguments. *)
Inductive endpoint :=
| CallAssets
| CallAssetMarkets (asset : string)
| CallPairs
| CallPairMarkets (pair : string)
| CallExchanges
| CallExchange (name : string)
| CallMarkets
| CallMarket (exchange pair : string)
| CallMarketPrice (exchange pair : string)
| CallMarketSummary (exchange pair : string)
| CallTrades (exchange pair : string)
| CallOrderBook (exchange pair : string)
| CallOhlc (exchange pair : string)
| CallAggregratePrices
| CallAggregrateSummaries.

(** The declared type of the result of an endpoint. *)
Definition result_type (c : endpoint) : gotype :=
  match c with
  | CallAssets => TSlice Asset
  | CallAssetMarkets _ => DetailedAsset
  | CallPairs => TSlice Pair
  | CallPairMarkets _ => PairMarket
  | CallExchanges => TSlice GeneralExchange
  | CallExchange _ => DetailedExchange
  | CallMarkets => TSlice GeneralMarket
  | CallMarket _ _ => DetailedMarket
  | CallMarketPrice _ _ => TFloat64
  | CallMarketSummary _ _ => Summary
  | CallTrades _ _ => TSlice Trade
  | CallOrderBook _ _ => MarketOrderBook
  | CallOhlc _ _ => OHLC
  | CallAggregratePrices => AggregratePrice
  | CallAggregrateSummaries => AggregrateSummary
  end.

(** The URL the path template of an endpoint gives with its arguments
    substituted in order. *)
Definition route (c : endpoint) : string :=
  match c with
  | CallAssets => base +:+ "assets"
  | CallAssetMarkets asset => base +:+ "assets/" +:+ asset
  | CallPairs => base +:+ "pairs"
  | CallPairMarkets pair' => base +:+ "pairs/" +:+ pair'
  | CallExchanges => base +:+ "exchanges"
  | CallExchange name => base +:+ "exchanges/" +:+ name
  | CallMarkets => base +:+ "markets"
  | CallMarket exchange pair' => base +:+ "markets/" +:+ exchange +:+ "/" +:+ pair'
  | CallMarketPrice exchange pair' =>
      base +:+ "markets/" +:+ exchange +:+ "/" +:+ pair' +:+ "/price"
  | CallMarketSummary exchange pair' =>
      base +:+ "markets/" +:+ exchange +:+ "/" +:+ pair' +:+ "/summary"
  | CallTrades exchange pair' =>
      base +:+ "markets/" +:+ exchange +:+ "/" +:+ pair' +:+ "/trades"
  | CallOrderBook exchange pair' =>
      base +:+ "markets/" +:+ exchange +:+ "/" +:+ pair' +:+ "/orderbook"
  | CallOhlc exchange pair' =>
      base +:+ "markets/" +:+ exchange +:+ "/" +:+ pair' +:+ "/ohlc"
  | CallAggregratePrices => base +:+ "markets/prices"
  | CallAggregrateSummaries => base +:+ "markets/summaries"
  end.

(** Running a call; the price of [MarketPrice] is wrapped as a value. *)
Definition call (c : endpoint) : M (goval * option error) :=
  match c with
  | CallAssets => Assets
  | CallAssetMarkets asset => AssetMarkets asset
  | CallPairs => Pairs
  | CallPairMarkets pair' => PairMarkets pair'
  | CallExchanges => Exchanges
  | CallExchange name => Exchange name
  | CallMarkets => Markets
  | CallMarket exchange pair' => Market exchange pair'
  | CallMarketPrice exchange pair' =>
      '(price, err) ← MarketPrice exchange pair'; mret (GFloat64 price, err)
  | CallMarketSummary exchange pair' => MarketSummary exchange pair'
  | CallTrades exchange pair' => Trades exchange pair'
  | CallOrderBook exchange pair' => OrderBook exchange pair'
  | CallOhlc exchange pair' => Ohlc exchange pair'
  | CallAggregratePrices => AggregratePrices
  | CallAggregrateSummaries => AggregrateSummaries
  end.

(** The URL a call hands to [request], as the code computes it. *)
Definition url_of (c : endpoint) : string :=
  match c with
  | CallAssets => index indexes "Assets"
  | CallAssetMarkets asset => fmt_Sprintf (index indexes "Asset") [asset]
  | CallPairs => index indexes "Pairs"
  | CallPairMarkets pair' => fmt_Sprintf (index indexes "Pair") [pair']
  | CallExchanges => index indexes "Exchanges"
  | CallExchange name => fmt_Sprintf (index indexes "Exchange") [name]
  | CallMarkets => index indexes "Markets"
  | CallMarket exchange pair' => fmt_Sprintf (index indexes "Market") [exchange; pair']
  | CallMarketPrice exchange pair' =>
      fmt_Sprintf (index indexes "MarketPrice") [exchange; pair']
  | CallMarketSummary exchange pair' =>
      fmt_Sprintf (index indexes "MarketSummary") [exchange; pair']
  | CallTrades exchange pair' =>
      fmt_Sprintf (index indexes "MarketTrades") [exchange; pair']
  | CallOrderBook exchange pair' =>
      fmt_Sprintf (index indexes "MarketOrderBook") [exchange; pair']
  | CallOhlc exchange pair' => fmt_Sprintf (index indexes "MarketOHLC") [exchange; pair']
  | CallAggregratePrices => index indexes "AggregratePrices"
  | CallAggregrateSummaries => index indexes "AggregrateSummaries"
  end.

(** ** Canned worlds *)

(** The world in which every GET is answered with the given status and body,
    at the given minute of the hour. *)
Definition respond (status : Z) (body : bytes) (minute : Z) : World :=
  {| serve := fun _ => inr {| StatusCode := status; Body := inr body |};
     Minute := minute |}.

(** The envelope [{"result": payload}]. *)
Definition envelope (payload : json) : bytes := Doc (JObj [("result", payload)]).

(** The error of the decoder on an empty body. *)
Definition unexpected_end : error := json_SyntaxError "unexpected end of JSON input".

(** A JSON number, as the decoder stores it in an [interface{}]: a finite
    [float64]. *)
Definition json_number (v : value) : Prop := ∃ f, v = VNum f ∧ is_finite f = true.

(** The name [UnmarshalTypeError] gives to the kind of a JSON value. *)
Definition json_kind (v : value) : string :=
  match v with
  | VNil => "null"
  | VBool _ => "bool"
  | VNum _ => "number"
  | VStr _ => "string"
  | VArr _ => "array"
  | VMap _ => "object"
  end.

(** Whether a value is of a kind its destination takes: null anywhere, an
    array in a slice, an object in a map or a struct, a literal in the basic
    type of its kind. *)
Definition fits (v : value) (t : gotype) : bool :=
  match v, t with
  | VNil, _ => true
  | VBool _, TBool => true
  | VNum _, TFloat64 => true
  | VNum f, TInt => bool_decide (is_Some (int_of_number f))
  | VStr _, TString => true
  | VArr _, TSlice _ => true
  | VMap _, TMap _ => true
  | VMap _, TStruct _ _ => true
  | _, _ => false
  end.

(** The type an endpoint decodes its payload into: its result type, but for
    [MarketPrice], which decodes a map and indexes it. *)
Definition payload_type (c : endpoint) : gotype :=
  match c with
  | CallMarketPrice _ _ => TMap TFloat64
  | _ => result_type c
  end.

(** * Properties *)

(** ** Sanity checks of the runtime model *)

Example index_Asset : index indexes "Asset" = "https://api.cryptowat.ch/assets/%v".
Proof. vm_compute. reflexivity. Qed.

Example index_absent : index indexes "Candles" = "".
Proof. vm_compute. reflexivity. Qed.

Example Sprintf_Market :
  fmt_Sprintf (index indexes "Market") ["gdax"; "ethbtc"]
  = "https://api.cryptowat.ch/markets/gdax/ethbtc".
Proof. vm_compute. reflexivity. Qed.

Example Sprintf_missing : fmt_Sprintf "a/%v/%v" ["x"] = "a/x/%!v(MISSING)".
Proof. vm_compute. reflexivity. Qed.

Example Sprintf_extra : fmt_Sprintf "a/%v" ["x"; "y"] = "a/x%!(EXTRA string=y)".
Proof. vm_compute. reflexivity. Qed.

Example string_of_int_48 : string_of_int 48 = "0".
Proof. reflexivity. Qed.

Example Itoa_30 : strconv_Itoa 30 = "30".
Proof. vm_compute. reflexivity. Qed.

Example int_of_number_5 : int_of_number 5 = Some 5.
Proof. vm_compute. reflexivity. Qed.

Example int_of_number_half : int_of_number 0.5 = None.
Proof. vm_compute. reflexivity. Qed.

Example int_of_number_1e20 : int_of_number 1e20 = None.
Proof. vm_compute. reflexivity. Qed.

(** Keys that differ only by case select the same field, and the encoder's
    order decides which one is stored last. *)
Example find_field_folds :
  find_field [("Symbol", ("symbol", TString))] "SYMBOL" = Some ("Symbol", TString).
Proof. vm_compute. reflexivity. Qed.

(** ** The unwrapper, branch by branch *)

Section unwrapper.

Variables (w : World) (url : string).

Ltac run :=
  unfold request, mbind, M_bind, mret, M_ret, http_Get, ioutil_ReadAll,
    time_Now_Minute, assert_map, assert_string, raise; simpl.

(** Every call issues exactly one GET, of the URL it was given. *)
Lemma request_trace : (request url w).1 = [GET url].
Proof.
  run. destruct (serve w url) as [err|resp]; [reflexivity|].
  destruct (Body resp) as [err|body]; [reflexivity|].
  destruct (json_Unmarshal_interface body) as [err|data]; [reflexivity|].
  destruct data; try reflexivity.
  destruct (bool_decide (StatusCode resp = 429)); [reflexivity|].
  destruct (bool_decide (StatusCode resp ≠ 200)); simpl.
  - destruct (map_index m "error"); reflexivity.
  - reflexivity.
Qed.

(** A transport error is handed on. *)
Lemma request_transport_error err :
  serve w url = inl err →
  request url w = ([GET url], Returned (None, Some err)).
Proof. intros H. run. rewrite H. reflexivity. Qed.

(** So is a failure to read the body. *)
Lemma request_read_error st err :
  serve w url = inr {| StatusCode := st; Body := inl err |} →
  request url w = ([GET url], Returned (None, Some err)).
Proof. intros H. run. rewrite H. reflexivity. Qed.

(** A body that does not decode: the decoder's error, whatever the status. *)
Lemma request_decode_error st body err :
  serve w url = inr {| StatusCode := st; Body := inr body |} →
  json_Unmarshal_interface body = inl err →
  request url w = ([GET url], Returned (None, Some err)).
Proof. intros H Hbody. run. rewrite H. simpl. rewrite Hbody. reflexivity. Qed.

(** A body that decodes to anything but an object: the type assertion
    panics, whatever the status. *)
Lemma request_not_object st body data :
  serve w url = inr {| StatusCode := st; Body := inr body |} →
  json_Unmarshal_interface body = inr data →
  (∀ m, data ≠ VMap m) →
  request url w
  = ([GET url],
     Panicked (TypeAssertionError (dynamic_type data) "map[string]interface {}")).
Proof.
  intros H Hbody Hdata. run. rewrite H. simpl. rewrite Hbody.
  destruct data; try reflexivity. congruence.
Qed.

(** Status 429. *)
Lemma request_rate_limited body m :
  serve w url = inr {| StatusCode := 429; Body := inr body |} →
  json_Unmarshal_interface body = inr (VMap m) →
  request url w
  = ([GET url],
     Returned (None, Some (errors_New
       ("Too Many Requests. Allowance resets in "
        +:+ string_of_int (60 - Minute w) +:+ " minutes.")))).
Proof. intros H Hbody. run. rewrite H. simpl. rewrite Hbody. reflexivity. Qed.

(** Any other status but 200, with a string under "error". *)
Lemma request_api_error st body m message :
  serve w url = inr {| StatusCode := st; Body := inr body |} →
  json_Unmarshal_interface body = inr (VMap m) →
  st ≠ 429 → st ≠ 200 →
  m !! "error" = Some (VStr message) →
  request url w = ([GET url], Returned (None, Some (errors_New message))).
Proof.
  intros H Hbody H429 H200 Herr. run. rewrite H. simpl. rewrite Hbody.
  rewrite bool_decide_false by done. rewrite bool_decide_true by done.
  run. unfold map_index. rewrite Herr. reflexivity.
Qed.

(** Any other status but 200, without a string under "error". *)
Lemma request_api_error_panics st body m :
  serve w url = inr {| StatusCode := st; Body := inr body |} →
  json_Unmarshal_interface body = inr (VMap m) →
  st ≠ 429 → st ≠ 200 →
  (∀ message, m !! "error" ≠ Some (VStr message)) →
  request url w
  = ([GET url],
     Panicked (TypeAssertionError (dynamic_type (map_index m "error")) "string")).
Proof.
  intros H Hbody H429 H200 Herr. run. rewrite H. simpl. rewrite Hbody.
  rewrite bool_decide_false by done. rewrite bool_decide_true by done.
  run. unfold map_index in *. destruct (m !! "error") as [[]|]; try reflexivity.
  exfalso. eapply Herr. reflexivity.
Qed.

(** Status 200: the value under "result", encoded again. *)
Lemma request_ok body m :
  serve w url = inr {| StatusCode := 200; Body := inr body |} →
  json_Unmarshal_interface body = inr (VMap m) →
  request url w = ([GET url], Returned (json_Marshal (map_index m "result"))).
Proof. intros H Hbody. run. rewrite H. simpl. rewrite Hbody. reflexivity. Qed.

(** A call that returns gives bytes or an error, never both, never neither. *)
Lemma request_returns t res err :
  request url w = (t, Returned (res, err)) →
  (∃ data, res = Some data ∧ err = None) ∨ (∃ e, res = None ∧ err = Some e).
Proof.
  run. destruct (serve w url) as [e|resp]; [intros [= <- <- <-]; eauto|].
  destruct (Body resp) as [e|body]; [intros [= <- <- <-]; eauto|].
  destruct (json_Unmarshal_interface body) as [e|data]; [intros [= <- <- <-]; eauto|].
  destruct data; try discriminate.
  destruct (bool_decide (StatusCode resp = 429)); [intros [= <- <- <-]; eauto|].
  destruct (bool_decide (StatusCode resp ≠ 200)); simpl.
  - destruct (map_index m "error"); try discriminate. intros [= <- <- <-]; eauto.
  - unfold json_Marshal. destruct (encodable _); intros [= <- <- <-]; eauto.
Qed.

End unwrapper.

(** ** Error classification of the unwrapper *)

(** C1, as the code has it. Whatever the status code, a body that is not
    valid JSON makes [request] return the decoder's error and a nil result;
    a body that is valid JSON but whose top-level value is not an object
    makes the unchecked type assertion panic, so that no error value is
    returned. *)
Theorem request_body_not_an_object w url st body :
  serve w url = inr {| StatusCode := st; Body := inr body |} →
  (∀ err, json_Unmarshal_interface body = inl err →
     request url w = ([GET url], Returned (None, Some err)))
  ∧ (∀ data, json_Unmarshal_interface body = inr data → (∀ m, data ≠ VMap m) →
     request url w
     = ([GET url],
        Panicked (TypeAssertionError (dynamic_type data) "map[string]interface {}"))).
Proof.
  intros H. split.
  - intros err Herr. eapply request_decode_error; eassumption.
  - intros data Hdata Hnot. eapply request_not_object; eassumption.
Qed.

Lemma request_body_not_an_object_witness :
  request "u" (respond 503 (Invalid unexpected_end) 0)
  = ([GET "u"], Returned (None, Some unexpected_end)).
Proof.
  exact (proj1 (request_body_not_an_object
                  (respond 503 (Invalid unexpected_end) 0) "u" 503
                  (Invalid unexpected_end) eq_refl)
           unexpected_end eq_refl).
Defined.

(** C1 as stated fails: the body [[]] is valid JSON and not an object, and
    [request] panics on it instead of returning a decode error. *)
Lemma request_array_body_panics :
  json_Unmarshal_interface (Doc (JArr [])) = inr (VArr [])
  ∧ request "u" (respond 200 (Doc (JArr [])) 0)
    = ([GET "u"],
       Panicked (TypeAssertionError "[]interface {}" "map[string]interface {}"))
  ∧ ∀ t r, request "u" (respond 200 (Doc (JArr [])) 0) ≠ (t, Returned r).
Proof.
  split; [reflexivity|]. split; [vm_compute; reflexivity|].
  intros t r. vm_compute. congruence.
Qed.

(** C2. A response with a status other than 200 and 429 whose body is an
    object with "error" bound to the string "foo": [request] returns a nil
    result and the error made of the message "foo". *)
Theorem request_error_foo w url st body m :
  serve w url = inr {| StatusCode := st; Body := inr body |} →
  st ≠ 200 → st ≠ 429 →
  json_Unmarshal_interface body = inr (VMap m) →
  m !! "error" = Some (VStr "foo") →
  request url w = ([GET url], Returned (None, Some (errors_New "foo")))
  ∧ Error (errors_New "foo") = Some "foo".
Proof.
  intros H H200 H429 Hbody Herr. split; [|reflexivity].
  eapply request_api_error; eassumption.
Qed.

Lemma request_error_foo_witness :
  request "u" (respond 404 (Doc (JObj [("error", JStr "foo")])) 0)
  = ([GET "u"], Returned (None, Some (errors_New "foo")))
  ∧ Error (errors_New "foo") = Some "foo".
Proof.
  apply (request_error_foo (respond 404 (Doc (JObj [("error", JStr "foo")])) 0)
           "u" 404 (Doc (JObj [("error", JStr "foo")]))
           (<["error" := VStr "foo"]> ∅)).
  - reflexivity.
  - lia.
  - lia.
  - reflexivity.
  - vm_compute. reflexivity.
Defined.

(** C3. A response with status 429 whose body is any JSON object: [request]
    returns a nil result and the rate-limit error, whatever the object holds
    under "error"; the message is not empty. *)
Theorem request_too_many_requests w url body m :
  serve w url = inr {| StatusCode := 429; Body := inr body |} →
  json_Unmarshal_interface body = inr (VMap m) →
  ∃ message,
    request url w = ([GET url], Returned (None, Some (errors_New message)))
    ∧ message = "Too Many Requests. Allowance resets in "
                +:+ string_of_int (60 - Minute w) +:+ " minutes."
    ∧ message ≠ "".
Proof.
  intros H Hbody. eexists. split; [|split; [reflexivity|]].
  - eapply request_rate_limited; eassumption.
  - discriminate.
Qed.

Lemma request_too_many_requests_witness :
  ∃ message,
    request "u" (respond 429 (Doc (JObj [("error", JStr "foo")])) 15)
    = ([GET "u"], Returned (None, Some (errors_New message)))
    ∧ message = "Too Many Requests. Allowance resets in "
                +:+ string_of_int (60 - 15) +:+ " minutes."
    ∧ message ≠ "".
Proof.
  exact (request_too_many_requests
           (respond 429 (Doc (JObj [("error", JStr "foo")])) 15) "u"
           (Doc (JObj [("error", JStr "foo")])) (<["error" := VStr "foo"]> ∅)
           eq_refl eq_refl).
Defined.

(** C5, as the code has it. For a status other than 200 and 429 and a body
    that is a JSON object, [request] returns an error value exactly when
    "error" is bound to a string, and the message is that string; when
    "error" is absent or bound to anything else the unchecked type assertion
    panics: there is no fallback message. *)
Theorem request_error_field w url st body m :
  serve w url = inr {| StatusCode := st; Body := inr body |} →
  st ≠ 200 → st ≠ 429 →
  json_Unmarshal_interface body = inr (VMap m) →
  (∀ message, m !! "error" = Some (VStr message) →
     request url w = ([GET url], Returned (None, Some (errors_New message))))
  ∧ ((∀ message, m !! "error" ≠ Some (VStr message)) →
     request url w
     = ([GET url],
        Panicked (TypeAssertionError (dynamic_type (map_index m "error")) "string"))).
Proof.
  intros H H200 H429 Hbody. split.
  - intros message Herr. eapply request_api_error; eassumption.
  - intros Herr. eapply request_api_error_panics; eassumption.
Qed.

Lemma request_error_field_witness :
  request "u" (respond 500 (Doc (JObj [("error", JNum 7)])) 0)
  = ([GET "u"], Panicked (TypeAssertionError "float64" "string")).
Proof.
  refine (proj2 (request_error_field
                   (respond 500 (Doc (JObj [("error", JNum 7)])) 0) "u" 500
                   (Doc (JObj [("error", JNum 7)])) (<["error" := VNum 7]> ∅)
                   eq_refl _ _ eq_refl) _).
  - lia.
  - lia.
  - intros message. vm_compute. discriminate.
Defined.

(** C5 as stated fails: on status 500 with the body [{}] the call panics and
    returns nothing, neither a result nor an error with a fallback message. *)
Lemma request_error_absent_panics :
  json_Unmarshal_interface (Doc (JObj [])) = inr (VMap ∅)
  ∧ request "u" (respond 500 (Doc (JObj [])) 0)
    = ([GET "u"], Panicked (TypeAssertionError "nil" "string"))
  ∧ ∀ t r, request "u" (respond 500 (Doc (JObj [])) 0) ≠ (t, Returned r).
Proof.
  split; [reflexivity|]. split; [vm_compute; reflexivity|].
  intros t r. vm_compute. congruence.
Qed.

(** ** The message of the rate-limit error *)

(** At no minute of the hour does the message carry the decimal digits of
    the minutes left: [string(ttr)] is the character whose code is [ttr]. *)
Lemma rate_limit_message_never_decimal minute body :
  0 ≤ minute < 60 →
  ∃ message,
    request "u" (respond 429 (Doc (JObj body)) minute)
    = ([GET "u"], Returned (None, Some (errors_New message)))
    ∧ strings_Contains message (strconv_Itoa (60 - minute)) = false.
Proof.
  intros Hminute. eexists. split.
  - eapply request_rate_limited; reflexivity.
  - cbn [Minute respond].
    assert (∃ n : nat, (n < 60)%nat ∧ minute = Z.of_nat n) as (n & Hn & ->).
    { exists (Z.to_nat minute). lia. }
    do 60 (destruct n as [|n]; [vm_compute; reflexivity|]). lia.
Qed.

(** C4 on the code: at half past the hour thirty minutes are left, and the
    message holds the control character of code 30 where the claim has the
    digits "30". *)
Theorem rate_limit_message_at_half_past :
  request "u" (respond 429 (Doc (JObj [])) 30)
  = ([GET "u"],
     Returned (None, Some (errors_New
       ("Too Many Requests. Allowance resets in "
        +:+ String (ascii_of_nat 30) " minutes."))))
  ∧ strconv_Itoa (60 - 30) = "30"
  ∧ strings_Contains
      ("Too Many Requests. Allowance resets in "
       +:+ String (ascii_of_nat 30) " minutes.") "30" = false.
Proof. repeat split; vm_compute; reflexivity. Qed.

(** ** Decode errors of the payload *)

(** C6 on the code: [Assets] throws the decoder's error away. An object
    where the array of assets is expected is reported by the decoder, and
    by [Pairs] on the same response, but [Assets] returns a nil slice with a
    nil error. *)
Theorem Assets_drops_decode_error :
  Assets (respond 200 (envelope (JObj [])) 0)
  = ([GET (base +:+ "assets")], Returned (GSlice None, None))
  ∧ json_Unmarshal (Doc (JObj [])) (TSlice Asset) (zero (TSlice Asset))
    = (GSlice None, Some (json_UnmarshalTypeError "object" (TSlice Asset)))
  ∧ Pairs (respond 200 (envelope (JObj [])) 0)
    = ([GET (base +:+ "pairs")],
       Returned (GSlice None, Some (json_UnmarshalTypeError "object" (TSlice Pair)))).
Proof. repeat split; vm_compute; reflexivity. Qed.

(** A payload of the wrong kind leaves the destination as it was and is
    reported by the decoder. *)
Lemma decode_wrong_kind v t cur :
  fits v t = false →
  decode (of_value v) t cur = (cur, Some (json_UnmarshalTypeError (json_kind v) t)).
Proof.
  destruct v, t; try discriminate; try reflexivity.
  cbn [fits of_value decode json_kind]. intros Hint.
  apply bool_decide_eq_false in Hint.
  destruct (int_of_number f); [|reflexivity].
  exfalso. apply Hint. eexists. reflexivity.
Qed.

(** Every endpoint function but [Assets] hands that error on, with the zero
    value of its result type; [Assets] returns the zero value and nil. *)
Lemma payload_of_wrong_kind c w body m v :
  serve w (url_of c) = inr {| StatusCode := 200; Body := inr body |} →
  json_Unmarshal_interface body = inr (VMap m) →
  m !! "result" = Some v →
  encodable v = true →
  fits v (payload_type c) = false →
  call c w
  = ([GET (url_of c)],
     Returned (zero (result_type c),
               match c with
               | CallAssets => None
               | _ => Some (json_UnmarshalTypeError (json_kind v) (payload_type c))
               end)).
Proof.
  intros Hserve Hbody Hresult Henc Hfits.
  destruct c; unfold url_of in *;
    unfold call, Assets, AssetMarkets, Pairs, PairMarkets, Exchanges, Exchange,
      Markets, Market, MarketPrice, MarketSummary, Trades, OrderBook, Ohlc,
      AggregratePrices, AggregrateSummaries, mbind, M_bind;
    rewrite (request_ok _ _ _ _ Hserve Hbody);
    unfold map_index; rewrite Hresult;
    change (default VNil (Some v)) with v;
    unfold json_Marshal; rewrite Henc; cbv beta iota;
    unfold json_Unmarshal; rewrite (decode_wrong_kind _ _ _ Hfits);
    reflexivity.
Qed.

(** ** The URLs of the endpoints *)

Lemma append_empty_r (s : string) : s +:+ "" = s.
Proof.
  induction s as [|c s IH]; [reflexivity|].
  change (String c (s +:+ "") = String c s). rewrite IH. reflexivity.
Qed.

(** What the code computes from the route table is the path template with
    the arguments in their places. *)
Lemma url_of_route c : url_of c = route c.
Proof.
  destruct c; vm_compute; try reflexivity;
    match goal with
    | x : string |- _ =>
        let E := fresh in
        pose proof (append_empty_r x) as E; vm_compute in E; rewrite E; reflexivity
    end.
Qed.

(** Sequencing and what it leaves of the first step. *)
Lemma bind_trace {A B} (m : M A) (k : A → M B) w t :
  (m w).1 = t → (∀ a, (k a w).1 = []) → ((m ≫= k) w).1 = t.
Proof.
  unfold mbind, M_bind. destruct (m w) as [t0 [a|p]]; simpl; intros -> Hk.
  - specialize (Hk a). destruct (k a w) as [t' o]. simpl in *. subst t'.
    apply app_nil_r.
  - reflexivity.
Qed.

Lemma bind_returned {A B} (m : M A) (k : A → M B) w t b :
  (m ≫= k) w = (t, Returned b) →
  ∃ t1 a t2, m w = (t1, Returned a) ∧ k a w = (t2, Returned b) ∧ t = (t1 ++ t2)%list.
Proof.
  unfold mbind, M_bind. destruct (m w) as [t1 [a|p]]; [|discriminate].
  destruct (k a w) as [t2 o] eqn:Hk. intros [= <- ->]. eauto 6.
Qed.

Ltac unfold_endpoints :=
  unfold call, Assets, AssetMarkets, Pairs, PairMarkets, Exchanges, Exchange,
    Markets, Market, MarketPrice, MarketSummary, Trades, OrderBook, Ohlc,
    AggregratePrices, AggregrateSummaries.

Ltac split_decoding :=
  repeat match goal with
  | |- context [json_Unmarshal ?d ?t ?v] =>
      let v' := fresh "v" in
      let e' := fresh "e" in
      destruct (json_Unmarshal d t v) as [v' [e'|]] eqn:?
  end.

(** An endpoint function issues the one GET of its [request]. *)
Lemma call_trace c w : (call c w).1 = [GET (url_of c)].
Proof.
  destruct c; unfold_endpoints; unfold url_of;
    repeat (apply bind_trace; [|intros [? ?]; try reflexivity]);
    try apply request_trace;
    match goal with |- context [match ?res with Some _ => _ | None => _ end] =>
      destruct res end; try reflexivity;
    split_decoding; reflexivity.
Qed.

(** C8. [AssetMarkets("btc")] issues a GET to the base URL followed by
    "assets/btc", [Market("gdax","ethbtc")] to the base URL followed by
    "markets/gdax/ethbtc", and every endpoint function issues one GET, to
    its path template with the arguments substituted in order. *)
Theorem endpoint_urls w :
  (AssetMarkets "btc" w).1 = [GET (base +:+ "assets/btc")]
  ∧ (Market "gdax" "ethbtc" w).1 = [GET (base +:+ "markets/gdax/ethbtc")]
  ∧ ∀ c, (call c w).1 = [GET (route c)].
Proof.
  split; [|split].
  - exact (call_trace (CallAssetMarkets "btc") w).
  - exact (call_trace (CallMarket "gdax" "ethbtc") w).
  - intros c. rewrite call_trace, url_of_route. reflexivity.
Qed.

(** ** Errors and the value that comes with them *)

Ltac unfold_endpoints_in H :=
  unfold call, Assets, AssetMarkets, Pairs, PairMarkets, Exchanges, Exchange,
    Markets, Market, MarketPrice, MarketSummary, Trades, OrderBook, Ohlc,
    AggregratePrices, AggregrateSummaries in H.

Ltac returned H :=
  unfold mret, M_ret in H; cbv beta iota in H; simplify_eq.

(** The shape shared by the endpoint functions that keep the decoder's
    error: the zero value with an error of [request], the decoder's output
    after a successful [request]. *)
Lemma decoding_endpoint (T : gotype) url w t v e :
  (request url ≫= (λ '(res, err),
     match res with
     | Some res => let '(x, err) := json_Unmarshal res T (zero T) in mret (x, err)
     | None => mret (zero T, err)
     end)) w = (t, Returned (v, Some e)) →
  v = zero T
  ∨ ∃ res, request url w = (t, Returned (Some res, None))
           ∧ json_Unmarshal res T (zero T) = (v, Some e).
Proof.
  intros H. apply bind_returned in H as (t1 & [res err] & t2 & Hreq & H & ->).
  destruct (request_returns _ _ _ _ _ Hreq) as [(data & -> & ->)|(e0 & -> & ->)].
  - destruct (json_Unmarshal data T (zero T)) as [x err] eqn:Hdec.
    returned H. right. exists data. rewrite app_nil_r. split; assumption.
  - returned H. left. reflexivity.
Qed.

(** [Assets] returns an error only when [request] does, with a nil slice. *)
Lemma Assets_error w t v e :
  Assets w = (t, Returned (v, Some e)) → v = zero (TSlice Asset).
Proof.
  unfold Assets. intros H.
  apply bind_returned in H as (t1 & [res err] & t2 & Hreq & H & ->).
  destruct (request_returns _ _ _ _ _ Hreq) as [(data & -> & ->)|(e0 & -> & ->)].
  - destruct (json_Unmarshal data (TSlice Asset) (zero (TSlice Asset))) as [x err].
    returned H.
  - returned H. reflexivity.
Qed.

(** [MarketPrice] returns 0 with every error. *)
Lemma MarketPrice_error exchange pair' w t price e :
  MarketPrice exchange pair' w = (t, Returned (price, Some e)) → price = 0%float.
Proof.
  unfold MarketPrice. intros H.
  apply bind_returned in H as (t1 & [res err] & t2 & Hreq & H & ->).
  destruct (request_returns _ _ _ _ _ Hreq) as [(data & -> & ->)|(e0 & -> & ->)].
  - destruct (json_Unmarshal data (TMap TFloat64) (zero (TMap TFloat64)))
      as [x [err|]]; returned H. reflexivity.
  - returned H. reflexivity.
Qed.

(** C7, as the code has it. An endpoint function that returns a non-nil
    error returns with it either the zero value of its result type, which is
    the case whenever the error is the unwrapper's (transport, envelope,
    rate limit, API error), or, after a 200 response whose payload does not
    decode, the error of [json.Unmarshal] together with whatever the decoder
    stored. [Assets] and [MarketPrice] return the zero value with every
    error. *)
Theorem error_with_result c w t v e :
  call c w = (t, Returned (v, Some e)) →
  (v = zero (result_type c)
   ∨ ∃ res, request (url_of c) w = (t, Returned (Some res, None))
            ∧ json_Unmarshal res (result_type c) (zero (result_type c)) = (v, Some e))
  ∧ ((c = CallAssets ∨ ∃ exchange pair', c = CallMarketPrice exchange pair') →
     v = zero (result_type c)).
Proof.
  intros H. destruct c;
    try (split; [exact (decoding_endpoint _ _ _ _ _ _ H)
                | intros [?|(? & ? & ?)]; discriminate]).
  - apply Assets_error in H. split; [left|intros _]; exact H.
  - unfold call in H.
    apply bind_returned in H as (t1 & [price err] & t2 & Hprice & H & ->).
    returned H. apply MarketPrice_error in Hprice as ->.
    split; [left|intros _]; reflexivity.
Qed.

Lemma error_with_result_witness :
  (GSlice None = zero (result_type CallPairs)
   ∨ ∃ res, request (url_of CallPairs)
              (respond 404 (Doc (JObj [("error", JStr "foo")])) 0)
            = ([GET (base +:+ "pairs")], Returned (Some res, None))
            ∧ json_Unmarshal res (result_type CallPairs) (zero (result_type CallPairs))
              = (GSlice None, Some (errors_New "foo")))
  ∧ ((CallPairs = CallAssets
      ∨ ∃ exchange pair', CallPairs = CallMarketPrice exchange pair') →
     GSlice None = zero (result_type CallPairs)).
Proof.
  apply (error_with_result CallPairs
           (respond 404 (Doc (JObj [("error", JStr "foo")])) 0)).
  vm_compute. reflexivity.
Defined.

(** C7 as stated fails: [AssetMarkets("btc")] on a payload whose "name" is a
    number returns the decoder's error together with a value in which
    "symbol" has been stored. *)
Lemma AssetMarkets_partial_result :
  AssetMarkets "btc"
    (respond 200 (envelope (JObj [("symbol", JStr "btc"); ("name", JNum 5)])) 0)
  = ([GET (base +:+ "assets/btc")],
     Returned
       (GStruct [("ID", GInt 0); ("Symbol", GString "btc"); ("Name", GString "");
                 ("Fiat", GBool false);
                 ("Markets", GStruct [("Base", GSlice None); ("Quote", GSlice None)])],
        Some (json_UnmarshalTypeError "number" TString)))
  ∧ GStruct [("ID", GInt 0); ("Symbol", GString "btc"); ("Name", GString "");
             ("Fiat", GBool false);
             ("Markets", GStruct [("Base", GSlice None); ("Quote", GSlice None)])]
    ≠ zero DetailedAsset.
Proof. split; [vm_compute; reflexivity|]. vm_compute. discriminate. Qed.

(** ** MarketPrice *)

(** [MarketPrice] after a 200 response: the payload is encoded, decoded as a
    [map[string]float64] and indexed at "price". *)
Lemma MarketPrice_ok exchange pair' w body m :
  serve w (route (CallMarketPrice exchange pair'))
  = inr {| StatusCode := 200; Body := inr body |} →
  json_Unmarshal_interface body = inr (VMap m) →
  encodable (map_index m "result") = true →
  MarketPrice exchange pair' w
  = ([GET (route (CallMarketPrice exchange pair'))],
     Returned
       (let '(resp, err) :=
          decode (of_value (map_index m "result")) (TMap TFloat64) (GMap None) in
        match err with
        | None => (float_index resp "price", None)
        | Some _ => (0%float, err)
        end)).
Proof.
  intros Hserve Hbody Henc. unfold MarketPrice.
  change (fmt_Sprintf (index indexes "MarketPrice") [exchange; pair'])
    with (url_of (CallMarketPrice exchange pair')).
  rewrite url_of_route. unfold mbind, M_bind.
  rewrite (request_ok _ _ _ _ Hserve Hbody). unfold json_Marshal. rewrite Henc.
  cbv beta iota. unfold json_Unmarshal. cbn [zero].
  destruct (decode _ _ _) as [resp [err|]]; reflexivity.
Qed.

(** C9. [MarketPrice("gdax","ethbtc")], when the GET is answered with
    status 200 and the body [{"result": {"price": 6321.5}}], returns 6321.5
    and a nil error. *)
Theorem MarketPrice_gdax_ethbtc w :
  serve w (base +:+ "markets/gdax/ethbtc/price")
  = inr {| StatusCode := 200;
           Body := inr (Doc (JObj [("result", JObj [("price", JNum 6321.5)])])) |} →
  MarketPrice "gdax" "ethbtc" w
  = ([GET (base +:+ "markets/gdax/ethbtc/price")], Returned (6321.5%float, None)).
Proof.
  intros Hserve.
  rewrite (MarketPrice_ok "gdax" "ethbtc" w
             (Doc (JObj [("result", JObj [("price", JNum 6321.5)])]))
             (<["result" := VMap (<["price" := VNum 6321.5]> ∅)]> ∅)).
  - vm_compute. reflexivity.
  - exact Hserve.
  - reflexivity.
  - vm_compute. reflexivity.
Qed.

Lemma MarketPrice_gdax_ethbtc_witness :
  MarketPrice "gdax" "ethbtc"
    (respond 200 (Doc (JObj [("result", JObj [("price", JNum 6321.5)])])) 0)
  = ([GET (base +:+ "markets/gdax/ethbtc/price")], Returned (6321.5%float, None)).
Proof.
  apply (MarketPrice_gdax_ethbtc
           (respond 200 (Doc (JObj [("result", JObj [("price", JNum 6321.5)])])) 0)).
  reflexivity.
Defined.

(** An object of numbers can be encoded. *)
Lemma encodable_numbers (fields : gmap string value) :
  (∀ k v, fields !! k = Some v → json_number v) → encodable (VMap fields) = true.
Proof.
  cbn [encodable].
  apply (map_fold_weak_ind
           (λ b (m : gmap string value),
              (∀ k v, m !! k = Some v → json_number v) → b = true)).
  - reflexivity.
  - intros k v m b Hfresh IH Hall.
    destruct (Hall k v) as (f & -> & Hf); [apply lookup_insert_eq|].
    cbn [encodable]. rewrite Hf, IH; [reflexivity|].
    intros k' v' Hk'. apply (Hall k').
    rewrite lookup_insert_ne; [assumption|]. intros ->. congruence.
Qed.

(** Decoding an object of numbers, none of them under "price", into a
    [map[string]float64] raises no error and stores nothing under "price". *)
Lemma decode_numbers_without_price (members : list (string * json)) :
  Forall (λ kv, kv.1 ≠ "price" ∧ ∃ f, kv.2 = JNum f) members →
  ∀ m : gmap string goval,
    ∃ m', decode_map (λ j, decode j TFloat64 (zero TFloat64)) members m = (m', None)
          ∧ m' !! "price" = m !! "price".
Proof.
  induction 1 as [|[k j] members [Hk [f Hj]] _ IH]; intros m.
  - exists m. split; reflexivity.
  - cbn [fst snd] in Hk, Hj. subst j.
    destruct (IH (<[k := GFloat64 f]> m)) as (m' & Hdec & Hprice).
    exists m'. split.
    + change (decode_map (λ j, decode j TFloat64 (zero TFloat64))
                ((k, JNum f) :: members) m)
        with (let '(m', e') :=
                decode_map (λ j, decode j TFloat64 (zero TFloat64)) members
                  (<[k := GFloat64 f]> m) in
              (m', saveError None e')).
      rewrite Hdec. reflexivity.
    + rewrite Hprice. apply lookup_insert_ne. congruence.
Qed.

(** C10. After a 200 response whose result payload is an object of numbers
    without a "price" key, [MarketPrice] returns 0 and a nil error, which is
    also what it returns when the payload is [{"price": 0}]. *)
Theorem MarketPrice_without_price exchange pair' w w0 body m fields :
  serve w (route (CallMarketPrice exchange pair'))
  = inr {| StatusCode := 200; Body := inr body |} →
  json_Unmarshal_interface body = inr (VMap m) →
  m !! "result" = Some (VMap fields) →
  (∀ k v, fields !! k = Some v → json_number v) →
  fields !! "price" = None →
  serve w0 (route (CallMarketPrice exchange pair'))
  = inr {| StatusCode := 200; Body := inr (envelope (JObj [("price", JNum 0)])) |} →
  MarketPrice exchange pair' w
  = ([GET (route (CallMarketPrice exchange pair'))], Returned (0%float, None))
  ∧ MarketPrice exchange pair' w0 = MarketPrice exchange pair' w.
Proof.
  intros Hserve Hbody Hresult Hnumbers Hprice Hserve0.
  assert (MarketPrice exchange pair' w
          = ([GET (route (CallMarketPrice exchange pair'))], Returned (0%float, None)))
    as Hw.
  { rewrite (MarketPrice_ok _ _ _ _ _ Hserve Hbody);
      unfold map_index; rewrite Hresult;
      change (default VNil (Some (VMap fields))) with (VMap fields);
      [|apply encodable_numbers; assumption].
    cbn [of_value].
    destruct (decode_numbers_without_price
                (merge_sort member_le (map_to_list (of_value <$> fields)))) with (m := (∅ : gmap string goval))
      as (m' & Hdec & Hm').
    - rewrite merge_sort_Permutation. apply Forall_forall. intros [k j] Hkj.
      apply elem_of_map_to_list in Hkj. rewrite lookup_fmap in Hkj.
      destruct (fields !! k) as [v|] eqn:Hk; [|discriminate].
      injection Hkj as <-. split.
      + cbn. intros ->. congruence.
      + destruct (Hnumbers k v Hk) as (f & -> & _). exists f. reflexivity.
    - cbn [decode]. rewrite Hdec. unfold float_index.
      rewrite Hm', lookup_empty. reflexivity. }
  split; [exact Hw|]. rewrite Hw.
  rewrite (MarketPrice_ok exchange pair' w0 (envelope (JObj [("price", JNum 0)]))
             (<["result" := VMap (<["price" := VNum 0]> ∅)]> ∅) Hserve0 eq_refl).
  - vm_compute. reflexivity.
  - vm_compute. reflexivity.
Qed.

Lemma MarketPrice_without_price_witness :
  MarketPrice "gdax" "ethbtc" (respond 200 (envelope (JObj [("volume", JNum 12.5)])) 0)
  = ([GET (route (CallMarketPrice "gdax" "ethbtc"))], Returned (0%float, None))
  ∧ MarketPrice "gdax" "ethbtc" (respond 200 (envelope (JObj [("price", JNum 0)])) 0)
    = MarketPrice "gdax" "ethbtc"
        (respond 200 (envelope (JObj [("volume", JNum 12.5)])) 0).
Proof.
  apply (MarketPrice_without_price "gdax" "ethbtc"
           (respond 200 (envelope (JObj [("volume", JNum 12.5)])) 0)
           (respond 200 (envelope (JObj [("price", JNum 0)])) 0)
           (envelope (JObj [("volume", JNum 12.5)]))
           (<["result" := VMap (<["volume" := VNum 12.5]> ∅)]> ∅)
           (<["volume" := VNum 12.5]> ∅)).
  - reflexivity.
  - reflexivity.
  - vm_compute. reflexivity.
  - intros k v Hk. apply lookup_insert_Some in Hk as [[_ <-]|[_ Hk]].
    + exists 12.5%float. split; reflexivity.
    + rewrite lookup_empty in Hk. discriminate.
  - vm_compute. reflexivity.
  - reflexivity.
Defined.
